(** * Book Alchemy: the catalog store and its route handlers

    A shallow embedding of [src/data_models.py] and [src/app.py].

    The two SQLAlchemy models become records, the SQLite database becomes
    a pair of row lists in rowid order, and every route handler becomes a
    function from the request and the store to a response and the store
    after the request.  Text is modelled by [string], read as the UTF-8
    encoding of the Python [str].  The
    [print] calls, which only write to the server log, are left out. *)

From Stdlib Require Import List ZArith Lia Bool Ascii String.
From Stdlib Require Import Sorting.Sorted Sorting.Permutation.
From Stdlib Require Import Numbers.DecimalString.
Import ListNotations.

Set Warnings "-register-all".

Open Scope string_scope.
Open Scope Z_scope.

(** ** Values of the database engine *)

(** What an [Integer] column of the SQLite file can hold: NULL, an
    integer, or text that the column affinity could not convert. *)
Inductive sqlval : Type :=
  | SqlNull
  | SqlInt (z : Z)
  | SqlText (s : string).

(** SQL's three-valued logic: [None] is UNKNOWN. *)
Definition sql3 : Type := option bool.

Definition sql_eq (a b : sqlval) : sql3 :=
  match a, b with
  | SqlNull, _ | _, SqlNull => None
  | SqlInt x, SqlInt y => Some (x =? y)
  | SqlText s, SqlText t => Some (String.eqb s t)
  | _, _ => Some false
  end.

Definition sql_not (p : sql3) : sql3 := option_map negb p.

Definition sql_or (p q : sql3) : sql3 :=
  match p, q with
  | Some true, _ | _, Some true => Some true
  | Some false, Some false => Some false
  | _, _ => None
  end.

(** [x IN (v1, ..., vn)] is [x = v1 OR ... OR x = vn]. *)
Fixpoint sql_in (x : sqlval) (vs : list sqlval) : sql3 :=
  match vs with
  | [] => Some false
  | v :: vs' => sql_or (sql_eq x v) (sql_in x vs')
  end.

(** A WHERE clause (and a join's ON clause) keeps a row only when the
    predicate is TRUE. *)
Definition sql_true (p : sql3) : bool :=
  match p with Some true => true | _ => false end.

(** Row identity for DISTINCT, where two NULLs count as the same value. *)
Definition sqlval_same (a b : sqlval) : bool :=
  match a, b with
  | SqlNull, SqlNull => true
  | SqlInt x, SqlInt y => x =? y
  | SqlText s, SqlText t => String.eqb s t
  | _, _ => false
  end.

Fixpoint distinct (vs : list sqlval) : list sqlval :=
  match vs with
  | [] => []
  | v :: vs' =>
      v :: filter (fun w => negb (sqlval_same v w)) (distinct vs')
  end.

(** ** The models of [data_models.py] *)

Module Author.
Record t : Type := mk {
  author_id : Z;
  name : string;
  birthdate : option string;
  date_of_death : option string
}.
End Author.

Module Book.
Record t : Type := mk {
  book_id : Z;
  isbn : string;
  title : string;
  publication_year : sqlval;
  author_id : sqlval;
  image_url : option string
}.
End Book.

(** The database: the [author] and the [book] table, rows in rowid order. *)
Record Store : Type := mkStore {
  authors : list Author.t;
  books : list Book.t
}.

(** The rowid SQLite gives to a row inserted without one: 1 in an empty
    table, otherwise one more than the largest rowid in use.  (Once the
    largest rowid, 2^63-1, is in use the engine tries unused ids at
    random instead; that is left out.) *)
Definition next_rowid (ids : list Z) : Z :=
  match ids with
  | [] => 1
  | i :: rest => fold_right Z.max i rest + 1
  end.

(** ** Requests and responses *)

Inductive Method : Type := GET | POST.

(** [request.form]: the submitted fields, first value of a key wins. *)
Definition Form : Type := list (string * string).

Fixpoint form_get (key : string) (form : Form) : option string :=
  match form with
  | [] => None
  | (k, v) :: rest => if String.eqb k key then Some v else form_get key rest
  end.

(** The exceptions the handlers can meet. *)
Inductive exn : Type :=
  | KeyError
  | IndexError
  | TypeError
  | AttributeError
  | OverflowError
  | InterfaceError
  | OperationalError
  | RequestException
  | JSONDecodeError.

(** What a view function hands back to Flask; [InternalServerError] is
    Flask's answer, status 500, to an exception the view does not catch. *)
Inductive Response : Type :=
  | Body (text : string) (status : Z)
  | RenderBooks (template : string) (books : list Book.t)
  | RenderAuthors (template : string) (authors : list Author.t)
  | RenderForm (template : string)
  | Redirect (endpoint : string)
  | BadRequest
  | InternalServerError (e : exn).

(** Python's [str] of an [int]. *)
Definition str_of_int (z : Z) : string := NilZero.string_of_int (Z.to_int z).

(** ** [delete] *)

(** An [int] the driver can bind: SQLite integers have 64 bits. *)
Definition fits_int64 (z : Z) : bool := (- 2 ^ 63 <=? z) && (z <? 2 ^ 63).

(** [Book.query.get(book_id)], for an id the driver can bind. *)
Definition book_get (book_id : Z) (rows : list Book.t) : option Book.t :=
  find (fun b => Book.book_id b =? book_id) rows.

(** [db.session.delete(book)] followed by the commit. *)
Definition delete_book (book_id : Z) (rows : list Book.t) : list Book.t :=
  filter (fun b => negb (Book.book_id b =? book_id)) rows.

(** [db.session.query(Book.author_id).distinct()]. *)
Definition authors_ids_with_books (rows : list Book.t) : list sqlval :=
  distinct (map Book.author_id rows).

(** The WHERE clause [~Author.author_id.in_(authors_ids_with_books)]. *)
Definition without_books (ids : list sqlval) (a : Author.t) : bool :=
  sql_true (sql_not (sql_in (SqlInt (Author.author_id a)) ids)).

(** [authors_ids_without_books.delete(synchronize_session=False)]:
    the rows the filter selects leave the table. *)
Definition sweep_authors (ids : list sqlval) (rows : list Author.t)
  : list Author.t :=
  filter (fun a => negb (without_books ids a)) rows.

(** The route hands over any run of digits as [book_id].  Binding an id
    outside 64 bits makes [Book.query.get] raise [OverflowError], which
    nothing catches.  The ids of the rows are 64-bit integers, so such an
    id is never the id of a row: the refusal sits where no row is found. *)
Definition delete (book_id : Z) (db : Store) : Response * Store :=
  match book_get book_id (books db) with
  | Some _ =>
      let db1 := mkStore (authors db) (delete_book book_id (books db)) in
      let ids := authors_ids_with_books (books db1) in
      let db2 := mkStore (sweep_authors ids (authors db1)) (books db1) in
      (Redirect "home", db2)
  | None =>
      if fits_int64 book_id
      then (Body ("No book found with ID " ++ str_of_int book_id) 404, db)
      else (InternalServerError OverflowError, db)
  end.

(** ** [add_author] *)

Definition add_author (method : Method) (form : Form) (db : Store)
  : Response * Store :=
  match method with
  | POST =>
      match form_get "name" form with
      | None => (BadRequest, db)
      | Some name =>
      match form_get "birthdate" form with
      | None => (BadRequest, db)
      | Some birthdate =>
      match form_get "date_of_death" form with
      | None => (BadRequest, db)
      | Some date_of_death =>
          let new_author :=
            Author.mk (next_rowid (map Author.author_id (authors db)))
                      name (Some birthdate) (Some date_of_death) in
          (Body "New author successfully added to database" 200,
           mkStore (authors db ++ [new_author]) (books db))
      end end end
  | GET => (RenderForm "add_author.html", db)
  end.

(** [Author.query.get(author_id)], the read that follows a write. *)
Definition author_get (author_id : Z) (rows : list Author.t)
  : option Author.t :=
  find (fun a => Author.author_id a =? author_id) rows.

(** ** [fetch_book_image] *)

(** The Python value [response.json()] produces.  Numbers with a fraction
    or an exponent are left out. *)
Inductive json : Type :=
  | JNull
  | JBool (b : bool)
  | JInt (z : Z)
  | JStr (s : string)
  | JList (items : list json)
  | JDict (fields : list (string * json)).

(** A Python computation: a value or a raised exception. *)
Inductive py (A : Type) : Type :=
  | Return (a : A)
  | Raise (e : exn).
Arguments Return {A} a.
Arguments Raise {A} e.

Definition py_bind {A B : Type} (m : py A) (k : A -> py B) : py B :=
  match m with
  | Return a => k a
  | Raise e => Raise e
  end.

Notation "x <- m ;; k" := (py_bind m (fun x => k))
  (at level 61, m at next level, right associativity).

(** The value a dict holds for a key. *)
Fixpoint dict_lookup (key : string) (fields : list (string * json))
  : option json :=
  match fields with
  | [] => None
  | (k, v) :: rest =>
      if String.eqb k key then Some v else dict_lookup key rest
  end.

(** [needle in hay] on two [str]. *)
Fixpoint str_contains (needle hay : string) : bool :=
  String.prefix needle hay ||
  match hay with
  | EmptyString => false
  | String _ hay' => str_contains needle hay'
  end.

(** A UTF-8 continuation byte, [10xxxxxx]. *)
Definition is_continuation (c : ascii) : bool :=
  let n := N_of_ascii c in ((128 <=? n) && (n <? 192))%N.

Fixpoint skip_continuation (s : string) : string :=
  match s with
  | String c s' => if is_continuation c then skip_continuation s' else s
  | EmptyString => EmptyString
  end.

Fixpoint take_continuation (s : string) : string :=
  match s with
  | String c s' =>
      if is_continuation c then String c (take_continuation s')
      else EmptyString
  | EmptyString => EmptyString
  end.

(** The first character of a text and what follows it: a lead byte of a
    multi-byte sequence takes its continuation bytes along. *)
Definition utf8_uncons (s : string) : option (string * string) :=
  match s with
  | EmptyString => None
  | String c s' =>
      if (192 <=? N_of_ascii c)%N
      then Some (String c (take_continuation s'), skip_continuation s')
      else Some (String c EmptyString, s')
  end.

(** [key in data]. *)
Definition py_in (key : string) (data : json) : py bool :=
  match data with
  | JDict fields =>
      Return (match dict_lookup key fields with Some _ => true | None => false end)
  | JList items =>
      Return (existsb (fun x => match x with
                                | JStr s => String.eqb s key
                                | _ => false
                                end) items)
  | JStr s => Return (str_contains key s)
  | _ => Raise TypeError
  end.

(** [data[key]] with a [str] key. *)
Definition py_getitem (key : string) (data : json) : py json :=
  match data with
  | JDict fields =>
      match dict_lookup key fields with
      | Some v => Return v
      | None => Raise KeyError
      end
  | _ => Raise TypeError
  end.

(** [data[0]]. *)
Definition py_getitem0 (data : json) : py json :=
  match data with
  | JList (x :: _) => Return x
  | JList [] => Raise IndexError
  | JStr s =>
      match utf8_uncons s with
      | Some (c, _) => Return (JStr c)
      | None => Raise IndexError
      end
  | JDict _ => Raise KeyError
  | _ => Raise TypeError
  end.

(** [data.get(key, default)]: only a dict has the method. *)
Definition py_get (key : string) (default : json) (data : json) : py json :=
  match data with
  | JDict fields =>
      Return (match dict_lookup key fields with
              | Some v => v
              | None => default
              end)
  | _ => Raise AttributeError
  end.

(** What the network gives back for a GET: no response at all, or a
    response whose body parses as JSON or does not. *)
Inductive Reply : Type :=
  | ConnectionFailed
  | Replied (parsed : option json).

Definition requests_get (network : string -> Reply) (url : string)
  : py (option json) :=
  match network url with
  | ConnectionFailed => Raise RequestException
  | Replied parsed => Return parsed
  end.

Definition response_json (response : option json) : py json :=
  match response with
  | Some data => Return data
  | None => Raise JSONDecodeError
  end.

(** The body of the [try] block; [Return None] is falling out of it. *)
Definition fetch_book_image_try (network : string -> Reply)
  (title isbn : string) : py (option json) :=
  let query := title ++ " " ++ isbn in
  let url := "https://www.googleapis.com/books/v1/volumes?q=" ++ query in
  response <- requests_get network url ;;
  data <- response_json response ;;
  has_items <- py_in "items" data ;;
  if has_items : bool then
    items <- py_getitem "items" data ;;
    first <- py_getitem0 items ;;
    volume_info <- py_getitem "volumeInfo" first ;;
    image_links <- py_get "imageLinks" (JDict []) volume_info ;;
    thumbnail <- py_get "thumbnail" (JStr "") image_links ;;
    Return (Some thumbnail)
  else Return None.

Definition fetch_book_image (network : string -> Reply)
  (title isbn : string) : json :=
  match fetch_book_image_try network title isbn with
  | Return (Some thumbnail) => thumbnail
  | Return None => JStr ""
  | Raise _ => JStr ""
  end.

(** ** [add_book] *)

(** Binding [image_url] for the INSERT: the driver refuses a list or a
    dict as a statement parameter, and an [int] outside 64 bits; the
    commit then raises.  What it accepts lands in the TEXT column as NULL
    or as text. *)
Definition bind_image_url (v : json) : py (option string) :=
  match v with
  | JNull => Return None
  | JStr s => Return (Some s)
  | JBool b => Return (Some (if b then "1" else "0"))
  | JInt z =>
      if (- 2 ^ 63 <=? z) && (z <? 2 ^ 63)
      then Return (Some (str_of_int z))
      else Raise OverflowError
  | JList _ | JDict _ => Raise InterfaceError
  end.

Section AddBook.

(** The database engine's INTEGER column affinity on a text parameter:
    the form hands [publication_year] and [author_id] over as text. *)
Variable integer_affinity : string -> sqlval.

(** The Google Books endpoint, as seen from [requests.get]. *)
Variable network : string -> Reply.

Definition add_book (method : Method) (form : Form) (db : Store)
  : py (Response * Store) :=
  match method with
  | POST =>
      match form_get "title" form with
      | None => Return (BadRequest, db)
      | Some title =>
      match form_get "isbn" form with
      | None => Return (BadRequest, db)
      | Some isbn =>
      match form_get "publication_year" form with
      | None => Return (BadRequest, db)
      | Some publication_year =>
      match form_get "author_id" form with
      | None => Return (BadRequest, db)
      | Some author_id =>
          let image_url := fetch_book_image network title isbn in
          stored_url <- bind_image_url image_url ;;
          let new_book :=
            Book.mk (next_rowid (map Book.book_id (books db)))
                    isbn title
                    (integer_affinity publication_year)
                    (integer_affinity author_id)
                    stored_url in
          Return (Body "New book successfully added to database" 200,
                  mkStore (authors db) (books db ++ [new_book]))
      end end end end
  | GET => Return (RenderAuthors "add_book.html" (authors db), db)
  end.

End AddBook.

(** ** [home] *)

(** SQLite's [lower()]: the 26 ASCII capitals only. *)
Definition ascii_lower (c : ascii) : ascii :=
  let n := N_of_ascii c in
  if ((65 <=? n) && (n <=? 90))%N then ascii_of_N (n + 32) else c.

Fixpoint lower (s : string) : string :=
  match s with
  | EmptyString => EmptyString
  | String c s' => String (ascii_lower c) (lower s')
  end.

(** *** Text as the engine's LIKE reads it

    LIKE works on C strings, read character by character: a text ends at
    its first NUL byte, and a lead byte takes the continuation bytes that
    follow it along.  [utf8_lead] and [utf8_fix] are what the engine's
    reader does to a lead byte and to a finished multi-byte character:
    overlong forms, surrogates, U+FFFE and U+FFFF all become U+FFFD. *)

Definition utf8_lead (n : N) : N :=
  (if n <? 224 then n - 192
   else if n <? 240 then n - 224
   else if n <? 248 then n - 240
   else if n <? 252 then n - 248
   else if n <? 254 then n - 252
   else 0)%N.

Definition utf8_fix (c : N) : N :=
  (if (c <? 128) || (N.land c 4294965248 =? 55296)
      || (N.land c 4294967294 =? 65534)
   then 65533 else c)%N.

(** One byte [n] read while [pending] is the multi-byte character under
    way, if any: the characters that are complete now, and the character
    under way afterwards ([None]: the text ended at a NUL). *)
Definition utf8_step (pending : option N) (n : N)
  : list N * option (option N) :=
  let fresh : list N * option (option N) :=
    (if n =? 0 then ([], None)
     else if 192 <=? n then ([], Some (Some (utf8_lead n)))
     else ([n], Some None))%N in
  match pending with
  | Some c =>
      if ((128 <=? n) && (n <? 192))%N
      then ([], Some (Some ((c * 64 + N.land n 63) mod 2 ^ 32)%N))
      else (utf8_fix c :: fst fresh, snd fresh)
  | None => fresh
  end.

Fixpoint text_chars_from (pending : option N) (s : string) : list N :=
  match s with
  | EmptyString =>
      match pending with
      | Some c => [utf8_fix c]
      | None => []
      end
  | String b s' =>
      let (done, next) := utf8_step pending (N_of_ascii b) in
      (done ++ match next with
               | Some pending' => text_chars_from pending' s'
               | None => []
               end)%list
  end.

(** The characters of a text, as code points. *)
Definition text_chars (s : string) : list N := text_chars_from None s.

(** The engine's [tolower], for the characters below 128. *)
Definition char_lower (c : N) : N :=
  (if (65 <=? c) && (c <=? 90) then c + 32 else c)%N.

(** A pattern character that is no wildcard matches itself, and below
    128 also its other case. *)
Definition char_match (p c : N) : bool :=
  ((p =? c) || ((p <? 128) && (c <? 128) && (char_lower p =? char_lower c)))%N.

(** SQLite's LIKE, written as the search it performs: [%] (37) stands
    for any run of characters, [_] (95) for one character, any other
    character for itself. *)
Fixpoint like (pattern text : list N) : bool :=
  match pattern with
  | [] =>
      match text with [] => true | _ :: _ => false end
  | p :: pattern' =>
      if (p =? 37)%N then
        (fix any (t : list N) : bool :=
           like pattern' t ||
           match t with
           | [] => false
           | _ :: t' => any t'
           end) text
      else if (p =? 95)%N then
        match text with
        | _ :: text' => like pattern' text'
        | [] => false
        end
      else
        match text with
        | c :: text' => char_match p c && like pattern' text'
        | [] => false
        end
  end.

(** [column.ilike(pattern)], which SQLAlchemy renders for SQLite as
    [lower(column) LIKE lower(pattern)]. *)
Definition ilike (column pattern : string) : bool :=
  like (text_chars (lower pattern)) (text_chars (lower column)).

Fixpoint byte_length (s : string) : Z :=
  match s with
  | EmptyString => 0
  | String _ s' => 1 + byte_length s'
  end.

(** The longest LIKE pattern the engine takes, in bytes. *)
Definition like_pattern_limit : Z := 50000.

(** [Book.query.filter(Book.title.ilike(pattern)).all()]: the engine
    evaluates the LIKE once per row, and refuses a pattern over the limit
    with "LIKE or GLOB pattern too complex" on the first row it meets. *)
Definition books_ilike (pattern : string) (rows : list Book.t)
  : py (list Book.t) :=
  match rows with
  | [] => Return []
  | _ :: _ =>
      if like_pattern_limit <? byte_length (lower pattern)
      then Raise OperationalError
      else Return (filter (fun b => ilike (Book.title b) pattern) rows)
  end.

Definition home (method : Method) (form : Form) (db : Store)
  : Response * Store :=
  match method with
  | POST =>
      match form_get "search" form with
      | None => (BadRequest, db)
      | Some search =>
          match books_ilike ("%" ++ search ++ "%") (books db) with
          | Raise e => (InternalServerError e, db)
          | Return found =>
              if (Z.of_nat (List.length found) =? 0)
              then (Body "No books found" 200, db)
              else (RenderBooks "home.html" found, db)
          end
      end
  | GET => (RenderBooks "home.html" (books db), db)
  end.

(** ** [sort_by_title] and [sort_by_author] *)

Section OrderBy.

Context {A : Type}.
Variable key : A -> string.

(** ORDER BY on a text column, in the BINARY collation: byte-wise
    lexicographic.  The engine promises no order among rows with equal
    keys; here they stay in table order. *)
Fixpoint insert_row (x : A) (rows : list A) : list A :=
  match rows with
  | [] => [x]
  | y :: rows' =>
      if String.leb (key x) (key y) then x :: rows
      else y :: insert_row x rows'
  end.

Fixpoint order_by (rows : list A) : list A :=
  match rows with
  | [] => []
  | x :: rows' => insert_row x (order_by rows')
  end.

End OrderBy.

Definition sort_by_title (db : Store) : Response * Store :=
  (RenderBooks "home.html" (order_by Book.title (books db)), db).

(** [Book.query.join(Author)]: the inner join on the foreign key,
    [book.author_id = author.author_id]. *)
Definition join_author (db : Store) : list (Book.t * Author.t) :=
  flat_map
    (fun b =>
       map (fun a => (b, a))
           (filter (fun a => sql_true (sql_eq (Book.author_id b)
                                              (SqlInt (Author.author_id a))))
                   (authors db)))
    (books db).

Definition sort_by_author (db : Store) : Response * Store :=
  let rows := order_by (fun r => Author.name (snd r)) (join_author db) in
  (RenderBooks "home.html" (map fst rows), db).

(** ** [__repr__] and [__str__] of [Author] *)

(** [str] of what a nullable String column reads back as. *)
Definition py_str (v : option string) : string :=
  match v with
  | Some s => s
  | None => "None"
  end.

Definition Author__repr__ (self : Author.t) : string :=
  "name=" ++ Author.name self ++
  ", birth_date=" ++ py_str (Author.birthdate self) ++
  ", date_of_death=" ++ py_str (Author.date_of_death self).

Definition Author__str__ (self : Author.t) : string :=
  Author.name self ++
  " (" ++ py_str (Author.birthdate self) ++
  "-" ++ py_str (Author.date_of_death self) ++ ")".

(** ** The properties, in the words of the specification *)

(** A book references an author through its foreign key. *)
Definition references (b : Book.t) (a : Author.t) : Prop :=
  Book.author_id b = SqlInt (Author.author_id a).

(** No orphan is left and no referenced author is lost: of the authors
    of [before], exactly those with a book in [after] are in [after]. *)
Definition orphans_swept (before after : Store) : Prop :=
  forall a,
    In a (authors after) <->
    In a (authors before) /\ exists b, In b (books after) /\ references b a.

(** One step into a JSON document: a field of an object or an element
    of an array. *)
Inductive step : Type :=
  | Key (k : string)
  | Index (n : nat).

Definition json_step (v : json) (s : step) : option json :=
  match s, v with
  | Key k, JDict fields => dict_lookup k fields
  | Index n, JList items => nth_error items n
  | _, _ => None
  end.

Fixpoint json_path (v : json) (path : list step) : option json :=
  match path with
  | [] => Some v
  | s :: path' =>
      match json_step v s with
      | Some v' => json_path v' path'
      | None => None
      end
  end.

(** Where the Google Books answer keeps the cover:
    [items[0].volumeInfo.imageLinks.thumbnail]. *)
Definition thumbnail_path : list step :=
  [Key "items"; Index 0; Key "volumeInfo"; Key "imageLinks"; Key "thumbnail"].

Definition lookup_url (title isbn : string) : string :=
  "https://www.googleapis.com/books/v1/volumes?q=" ++ title ++ " " ++ isbn.

(** The lookup fails: no answer from the network, an answer that is not
    JSON, or a document in which a field on the way to the thumbnail is
    missing. *)
Definition lookup_fails (network : string -> Reply) (title isbn : string)
  : Prop :=
  network (lookup_url title isbn) = ConnectionFailed \/
  network (lookup_url title isbn) = Replied None \/
  exists data,
    network (lookup_url title isbn) = Replied (Some data) /\
    json_path data thumbnail_path = None.

(** The lookup succeeds with the thumbnail [v]. *)
Definition lookup_finds (network : string -> Reply) (title isbn : string)
  (v : json) : Prop :=
  exists data,
    network (lookup_url title isbn) = Replied (Some data) /\
    json_path data thumbnail_path = Some v.




(** A text begins with a run of characters; a text contains it. *)
Fixpoint starts_with (run text : list N) : bool :=
  match run, text with
  | [], _ => true
  | r :: run', c :: text' => (r =? c)%N && starts_with run' text'
  | _ :: _, [] => false
  end.

Fixpoint contains_run (run text : list N) : bool :=
  starts_with run text ||
  match text with
  | [] => false
  | _ :: text' => contains_run run text'
  end.

(** The title has the term in it, as the engine reads the two texts and
    with A to Z taken for a to z. *)
Definition title_has (term title : string) : bool :=
  contains_run (text_chars (lower term)) (text_chars (lower title)).



(** The text has no NUL in it. *)
Fixpoint no_nul (s : string) : bool :=
  match s with
  | EmptyString => true
  | String c s' => negb (Ascii.eqb c "000") && no_nul s'
  end.

(** Primary keys: no two rows of a table share an id. *)
Definition unique_ids (db : Store) : Prop :=
  NoDup (map Author.author_id (authors db)) /\
  NoDup (map Book.book_id (books db)).

(** A sequence of rows whose keys never decrease, byte-wise
    lexicographically, from one row to the next. *)
Definition non_decreasing {A : Type} (key : A -> string) (rows : list A)
  : Prop :=
  Sorted (fun x y => String.leb (key x) (key y) = true) rows.

(** ** A small library, after the example of the specification *)

Definition jane_austen : Author.t :=
  Author.mk 1 "Jane Austen" (Some "1775") (Some "1817").

Definition emma : Book.t :=
  Book.mk 1 "123" "Emma" (SqlInt 1815) (SqlInt 1) (Some "").

Definition persuasion : Book.t :=
  Book.mk 2 "456" "Persuasion" (SqlInt 1817) (SqlInt 1) (Some "").

(** A book row whose [author_id] column is NULL. *)
Definition beowulf : Book.t :=
  Book.mk 3 "789" "Beowulf" SqlNull SqlNull None.

Definition austen_library : Store :=
  mkStore [jane_austen] [emma; persuasion].

Definition mixed_library : Store :=
  mkStore [jane_austen] [emma; beowulf].

(** An INTEGER affinity for the examples: decimal integers are stored as
    integers, any other text as it is. *)
Definition decimal_affinity (s : string) : sqlval :=
  match NilZero.int_of_string s with
  | Some d => SqlInt (Z.of_int d)
  | None => SqlText s
  end.

Definition emma_form : Form :=
  [("title", "Emma"); ("isbn", "123");
   ("publication_year", "1815"); ("author_id", "1")].

(** The lookup stubbed to fail. *)
Definition network_down : string -> Reply := fun _ => ConnectionFailed.

Definition emma_cover : string :=
  "http://books.google.com/books/content?id=emma&img=1".

(** The lookup stubbed to answer with a cover for every query. *)
Definition network_with_cover : string -> Reply :=
  fun _ =>
    Replied (Some (JDict [("kind", JStr "books#volumes");
      ("items", JList [JDict [("volumeInfo",
         JDict [("title", JStr "Emma");
                ("imageLinks", JDict [("thumbnail", JStr emma_cover)])])]])])).

(** A book posted with the id of an author the store does not have. *)
Definition dracula_form : Form :=
  [("title", "Dracula"); ("isbn", "999");
   ("publication_year", "1897"); ("author_id", "7")].

Definition dracula : Book.t :=
  Book.mk 2 "999" "Dracula" (SqlInt 1897) (SqlInt 7) (Some "").









(** A reply whose thumbnail is a list, and one whose thumbnail is null. *)
Definition reply_with (thumbnail : json) : string -> Reply :=
  fun _ =>
    Replied (Some (JDict [("items", JList [JDict [("volumeInfo",
      JDict [("imageLinks", JDict [("thumbnail", thumbnail)])])]])])).

(** * Theorems *)

(** ** Deleting a book *)

Lemma book_get_Some_iff (book_id : Z) (rows : list Book.t) :
  (exists b, book_get book_id rows = Some b) <->
  (exists b, In b rows /\ Book.book_id b = book_id).
Proof.
  unfold book_get. split.
  - intros [b Hb]. apply find_some in Hb as [Hin Heq].
    exists b. split; [exact Hin | now apply Z.eqb_eq].
  - intros [b [Hin Heq]].
    destruct (find _ rows) as [b'|] eqn:Hfind; [now exists b'|].
    apply (find_none _ _ Hfind) in Hin.
    apply Z.eqb_neq in Hin. contradiction.
Qed.


Lemma delete_book_In (book_id : Z) (rows : list Book.t) (b : Book.t) :
  In b (delete_book book_id rows) <-> In b rows /\ Book.book_id b <> book_id.
Proof.
  unfold delete_book. rewrite filter_In, negb_true_iff, Z.eqb_neq. tauto.
Qed.

Lemma sqlval_same_eq (a b : sqlval) : sqlval_same a b = true <-> a = b.
Proof.
  destruct a, b; simpl; split; intros H;
    try discriminate; try reflexivity.
  - apply Z.eqb_eq in H. now subst.
  - injection H as ->. apply Z.eqb_refl.
  - apply String.eqb_eq in H. now subst.
  - injection H as ->. apply String.eqb_refl.
Qed.

Lemma distinct_In (v : sqlval) (vs : list sqlval) :
  In v (distinct vs) <-> In v vs.
Proof.
  induction vs as [|w vs IH]; simpl; [tauto|].
  rewrite filter_In, IH. split.
  - intros [Heq | [Hin _]]; auto.
  - intros [Heq | Hin]; [now left|].
    destruct (sqlval_same w v) eqn:Hsame.
    + left. now apply sqlval_same_eq.
    + right. now split.
Qed.

(** Once NULL is among the values, [IN] is never FALSE. *)
Lemma sql_in_with_null (x : sqlval) (vs : list sqlval) :
  In SqlNull vs -> sql_in x vs <> Some false.
Proof.
  induction vs as [|v vs IH]; simpl; [tauto|].
  intros [-> | Hin].
  - destruct x; simpl; destruct (sql_in _ vs) as [[|]|]; discriminate.
  - specialize (IH Hin).
    destruct (sql_eq x v) as [[|]|], (sql_in x vs) as [[|]|];
      simpl; congruence.
Qed.

(** Without NULL among the values, [IN] on an integer is membership. *)
Lemma sql_in_without_null (z : Z) (vs : list sqlval) :
  ~ In SqlNull vs ->
  sql_in (SqlInt z) vs = Some (existsb (sqlval_same (SqlInt z)) vs).
Proof.
  induction vs as [|v vs IH]; simpl; [reflexivity|].
  intros Hnot. rewrite IH by tauto.
  destruct v as [|y|s]; simpl.
  - exfalso. apply Hnot. now left.
  - now destruct (z =? y), (existsb _ vs).
  - now destruct (existsb _ vs).
Qed.

Lemma without_books_with_null (ids : list sqlval) (a : Author.t) :
  In SqlNull ids -> without_books ids a = false.
Proof.
  intros Hin. unfold without_books.
  pose proof (sql_in_with_null (SqlInt (Author.author_id a)) ids Hin) as H.
  destruct (sql_in _ ids) as [[|]|]; simpl; congruence.
Qed.

Lemma without_books_without_null (rows : list Book.t) (a : Author.t) :
  ~ In SqlNull (map Book.author_id rows) ->
  without_books (authors_ids_with_books rows) a = false <->
  exists b, In b rows /\ references b a.
Proof.
  intros Hnot. unfold without_books, authors_ids_with_books.
  rewrite sql_in_without_null by (now rewrite distinct_In).
  unfold sql_not, option_map, sql_true.
  destruct (existsb _ _) eqn:Hex; simpl.
  2:{ split; [discriminate|]. intros [b [Hin Href]].
      assert (existsb (sqlval_same (SqlInt (Author.author_id a)))
                (distinct (map Book.author_id rows)) = true) as Hyes.
      { apply existsb_exists. exists (SqlInt (Author.author_id a)). split.
        - apply distinct_In, in_map_iff. now exists b.
        - now apply sqlval_same_eq. }
      congruence. }
  split; [intros _|reflexivity].
  apply existsb_exists in Hex as [v [Hin Hsame]].
  apply sqlval_same_eq in Hsame. subst v.
  apply distinct_In, in_map_iff in Hin as [b [Hb Hin]].
  exists b. split; [exact Hin | exact Hb].
Qed.

(** X4: the sweep does what the docstring of [delete] says as long as
    every remaining book names an author: after the deletion of an
    existing book the authors left are exactly the former authors that a
    remaining book references. *)
Lemma delete_sweeps_orphans_without_null (book_id : Z) (db : Store) :
  (exists b, In b (books db) /\ Book.book_id b = book_id) ->
  (forall b, In b (books db) -> Book.book_id b <> book_id ->
             Book.author_id b <> SqlNull) ->
  orphans_swept db (snd (delete book_id db)).
Proof.
  intros Hex Hnonnull. apply book_get_Some_iff in Hex as [b0 Hget].
  unfold orphans_swept, delete. rewrite Hget. cbn [snd authors books].
  intros a. unfold sweep_authors. rewrite filter_In, negb_true_iff.
  rewrite without_books_without_null; [tauto|].
  intros Hin. apply in_map_iff in Hin as [b [Hnull Hin]].
  apply delete_book_In in Hin as [Hin Hne].
  now apply (Hnonnull b).
Qed.

Lemma filter_all (A : Type) (f : A -> bool) (l : list A) :
  (forall x, In x l -> f x = true) -> filter f l = l.
Proof.
  induction l as [|x l IH]; simpl; intros Hall; [reflexivity|].
  rewrite (Hall x) by now left.
  f_equal. apply IH. intros y Hy. apply Hall. now right.
Qed.

(** C1, evaluated where it fails: deleting "Emma" from a library that
    also holds a book with a NULL author leaves Jane Austen in the store
    although no remaining book references her, so the authors left are
    not exactly the referenced ones. *)
Theorem delete_leaves_orphan_beside_null_author :
  delete 1 mixed_library = (Redirect "home", mkStore [jane_austen] [beowulf])
  /\ ~ orphans_swept mixed_library (snd (delete 1 mixed_library)).
Proof.
  split; [reflexivity|].
  intros Hswept. destruct (Hswept jane_austen) as [Hkept _].
  destruct Hkept as [_ [b [Hin Href]]]; [now left|].
  destruct Hin as [<- | []]. discriminate Href.
Qed.




(** C9: when a book that stays after the deletion has a NULL author
    reference, the sweep removes no author at all. *)
Theorem delete_with_null_author_keeps_authors (book_id : Z) (db : Store) :
  (exists b, In b (books db) /\ Book.book_id b = book_id) ->
  (exists b, In b (books db) /\ Book.book_id b <> book_id /\
             Book.author_id b = SqlNull) ->
  fst (delete book_id db) = Redirect "home" /\
  authors (snd (delete book_id db)) = authors db.
Proof.
  intros Hex [b [Hin [Hne Hnull]]].
  apply book_get_Some_iff in Hex as [b0 Hget].
  unfold delete. rewrite Hget. cbn [fst snd authors books].
  split; [reflexivity|].
  unfold sweep_authors. apply filter_all. intros a _.
  apply negb_true_iff, without_books_with_null.
  apply distinct_In, in_map_iff. exists b. split; [exact Hnull|].
  now apply delete_book_In.
Qed.

Lemma delete_with_null_author_keeps_authors_witness :
  fst (delete 1 mixed_library) = Redirect "home" /\
  authors (snd (delete 1 mixed_library)) = [jane_austen].
Proof.
  apply (delete_with_null_author_keeps_authors 1 mixed_library).
  - exists emma. split; [now left | reflexivity].
  - exists beowulf. split; [right; now left|]. split; [simpl; lia | reflexivity].
Defined.

(** C10: deleting an existing book removes the rows of that id from the
    book table and nothing else: a book is in the store afterwards exactly
    when it was there before, unchanged, under another id. *)
Theorem delete_removes_only_that_book (book_id : Z) (db : Store) :
  (exists b, In b (books db) /\ Book.book_id b = book_id) ->
  fst (delete book_id db) = Redirect "home" /\
  forall b,
    In b (books (snd (delete book_id db))) <->
    In b (books db) /\ Book.book_id b <> book_id.
Proof.
  intros Hex. apply book_get_Some_iff in Hex as [b0 Hget].
  unfold delete. rewrite Hget. cbn [fst snd books].
  split; [reflexivity|]. intros b. apply delete_book_In.
Qed.

Lemma delete_removes_only_that_book_witness :
  fst (delete 1 austen_library) = Redirect "home" /\
  forall b,
    In b (books (snd (delete 1 austen_library))) <->
    In b (books austen_library) /\ Book.book_id b <> 1.
Proof.
  apply (delete_removes_only_that_book 1 austen_library).
  exists emma. split; [now left | reflexivity].
Defined.

(** ** Sorting *)

Section OrderByFacts.

Context {A : Type}.
Variable key : A -> string.

Lemma insert_row_Permutation (x : A) (rows : list A) :
  Permutation (x :: rows) (insert_row key x rows).
Proof.
  induction rows as [|y rows IH]; simpl; [reflexivity|].
  destruct (String.leb (key x) (key y)); [reflexivity|].
  rewrite perm_swap. now constructor.
Qed.

Lemma order_by_Permutation (rows : list A) :
  Permutation rows (order_by key rows).
Proof.
  induction rows as [|x rows IH]; simpl; [constructor|].
  rewrite <- insert_row_Permutation. now constructor.
Qed.

Lemma leb_false_flip (s t : string) :
  String.leb s t = false -> String.leb t s = true.
Proof.
  intros H. destruct (String.leb_total s t) as [Hst | Hts]; congruence.
Qed.

Lemma insert_row_HdRel (x y : A) (rows : list A) :
  String.leb (key y) (key x) = true ->
  HdRel (fun a b => String.leb (key a) (key b) = true) y rows ->
  HdRel (fun a b => String.leb (key a) (key b) = true) y
        (insert_row key x rows).
Proof.
  intros Hyx Hhd. destruct rows as [|z rows]; simpl.
  - now constructor.
  - destruct (String.leb (key x) (key z)); constructor; auto.
    now inversion Hhd.
Qed.

Lemma insert_row_non_decreasing (x : A) (rows : list A) :
  non_decreasing key rows -> non_decreasing key (insert_row key x rows).
Proof.
  unfold non_decreasing.
  induction rows as [|y rows IH]; simpl; intros Hs.
  - repeat constructor.
  - destruct (String.leb (key x) (key y)) eqn:Hxy.
    + constructor; [exact Hs | now constructor].
    + inversion Hs as [|? ? Hs' Hhd]; subst. constructor.
      * now apply IH.
      * apply insert_row_HdRel; [now apply leb_false_flip | exact Hhd].
Qed.

Lemma order_by_non_decreasing (rows : list A) :
  non_decreasing key (order_by key rows).
Proof.
  induction rows as [|x rows IH]; simpl.
  - constructor.
  - now apply insert_row_non_decreasing.
Qed.

End OrderByFacts.

(** C7: [sort_by_title] renders every book of the store, each as often as
    the store holds it, in a sequence whose titles never decrease in
    lexicographic order; the store is not touched. *)
Theorem sort_by_title_all_books_non_decreasing (db : Store) :
  exists listed,
    sort_by_title db = (RenderBooks "home.html" listed, db) /\
    Permutation (books db) listed /\
    non_decreasing Book.title listed.
Proof.
  exists (order_by Book.title (books db)). split; [reflexivity|]. split.
  - apply order_by_Permutation.
  - apply order_by_non_decreasing.
Qed.

(** C2, evaluated where it fails: in a store holding "Emma" by Jane
    Austen and a book with a NULL author, [sort_by_author] lists "Emma"
    alone; the other book of the store is missing from the page.  The
    same happens to a book that [add_book] stored under the id of an
    author the store does not have. *)
Theorem sort_by_author_omits_book_without_author :
  (sort_by_author mixed_library
     = (RenderBooks "home.html" [emma], mixed_library)
   /\ In beowulf (books mixed_library)
   /\ ~ In beowulf [emma])
  /\
  (add_book decimal_affinity network_down POST dracula_form
            (mkStore [jane_austen] [emma])
     = Return (Body "New book successfully added to database" 200,
               mkStore [jane_austen] [emma; dracula])
   /\ sort_by_author (mkStore [jane_austen] [emma; dracula])
     = (RenderBooks "home.html" [emma], mkStore [jane_austen] [emma; dracula])
   /\ ~ In dracula [emma]).
Proof.
  split; (split; [reflexivity|]).
  - split; [right; now left|]. intros [Heq | []]. discriminate Heq.
  - split; [reflexivity|]. intros [Heq | []]. discriminate Heq.
Qed.

Lemma join_matches_In (b : Book.t) (a : Author.t) (rows : list Author.t) :
  In a (filter (fun a' => sql_true (sql_eq (Book.author_id b)
                                           (SqlInt (Author.author_id a'))))
               rows) <->
  In a rows /\ references b a.
Proof.
  rewrite filter_In. unfold references.
  destruct (Book.author_id b) as [|z|s]; simpl.
  - split; intros [_ H]; discriminate.
  - destruct (z =? Author.author_id a) eqn:Heq.
    + apply Z.eqb_eq in Heq. subst z. tauto.
    + apply Z.eqb_neq in Heq. split; intros [_ H]; [discriminate|].
      injection H as H. contradiction.
  - split; intros [_ H]; discriminate.
Qed.

Lemma join_no_match (z : Z) (rows : list Author.t) :
  ~ In z (map Author.author_id rows) ->
  filter (fun a' => sql_true (sql_eq (SqlInt z)
                                     (SqlInt (Author.author_id a'))))
         rows = [].
Proof.
  induction rows as [|y rows IH]; simpl; intros Hfresh; [reflexivity|].
  destruct (z =? Author.author_id y) eqn:Heq.
  - apply Z.eqb_eq in Heq. exfalso. apply Hfresh. now left.
  - apply IH. intros H. apply Hfresh. now right.
Qed.

Lemma join_matches_unique (b : Book.t) (a : Author.t) (rows : list Author.t) :
  NoDup (map Author.author_id rows) ->
  In a rows -> references b a ->
  filter (fun a' => sql_true (sql_eq (Book.author_id b)
                                     (SqlInt (Author.author_id a'))))
         rows = [a].
Proof.
  unfold references. intros Hnodup Hin Href. rewrite Href. clear Href.
  induction rows as [|x rows IH]; [contradiction|].
  cbn [map] in Hnodup. inversion Hnodup as [|? ? Hfresh Hnodup']; subst.
  cbn [filter sql_eq sql_true]. destruct Hin as [-> | Hin].
  - rewrite Z.eqb_refl. f_equal. now apply join_no_match.
  - destruct (Author.author_id a =? Author.author_id x) eqn:Heq.
    + apply Z.eqb_eq in Heq. exfalso. apply Hfresh.
      rewrite <- Heq. now apply in_map.
    + now apply IH.
Qed.

Lemma join_author_all_books (db : Store) :
  NoDup (map Author.author_id (authors db)) ->
  (forall b, In b (books db) ->
             exists a, In a (authors db) /\ references b a) ->
  map fst (join_author db) = books db.
Proof.
  intros Hnodup. unfold join_author.
  induction (books db) as [|b rows IH]; simpl; intros Hall; [reflexivity|].
  destruct (Hall b) as [a [Hin Href]]; [now left|].
  rewrite (join_matches_unique b a) by assumption.
  simpl. f_equal. apply IH. intros b' Hb'. apply Hall. now right.
Qed.

(** X17: where author ids are unique and every book names an author of
    the store, [sort_by_author] does list all books, each as often as the
    store holds it, in author-name order. *)
Lemma sort_by_author_all_books_when_referenced (db : Store) :
  NoDup (map Author.author_id (authors db)) ->
  (forall b, In b (books db) ->
             exists a, In a (authors db) /\ references b a) ->
  exists rows,
    sort_by_author db = (RenderBooks "home.html" (map fst rows), db) /\
    Permutation (books db) (map fst rows) /\
    non_decreasing (fun r => Author.name (snd r)) rows /\
    forall b a, In (b, a) rows -> In a (authors db) /\ references b a.
Proof.
  intros Hnodup Hall.
  exists (order_by (fun r => Author.name (snd r)) (join_author db)).
  split; [reflexivity|]. split; [|split].
  - rewrite <- (join_author_all_books db Hnodup Hall) at 1.
    apply Permutation_map, order_by_Permutation.
  - apply order_by_non_decreasing.
  - intros b a Hin.
    apply (Permutation_in _ (Permutation_sym (order_by_Permutation _ _))) in Hin.
    unfold join_author in Hin. apply in_flat_map in Hin as [b' [_ Hin]].
    apply in_map_iff in Hin as [a' [Heq Hin]]. injection Heq as -> ->.
    now apply join_matches_In.
Qed.

(** ** Adding an author *)

Lemma fold_max_upper (i : Z) (rest : list Z) :
  i <= fold_right Z.max i rest /\
  forall j, In j rest -> j <= fold_right Z.max i rest.
Proof.
  induction rest as [|k rest [IHi IHr]]; simpl.
  - split; [lia | tauto].
  - split; [lia|]. intros j [-> | Hj]; [lia|].
    specialize (IHr j Hj). lia.
Qed.

Lemma next_rowid_fresh (ids : list Z) (i : Z) :
  In i ids -> i < next_rowid ids.
Proof.
  destruct ids as [|k rest]; simpl; [tauto|].
  destruct (fold_max_upper k rest) as [Hk Hrest].
  intros [<- | Hin]; [lia|]. specialize (Hrest i Hin). lia.
Qed.

Lemma author_get_appended (a : Author.t) (rows : list Author.t) :
  (forall x, In x rows -> Author.author_id x <> Author.author_id a) ->
  author_get (Author.author_id a) (rows ++ [a]) = Some a.
Proof.
  unfold author_get. induction rows as [|x rows IH]; simpl; intros Hfresh.
  - now rewrite Z.eqb_refl.
  - destruct (Author.author_id x =? Author.author_id a) eqn:Heq.
    + apply Z.eqb_eq in Heq. exfalso. apply (Hfresh x); [now left | exact Heq].
    + apply IH. intros y Hy. apply Hfresh. now right.
Qed.

(** C8: an author posted with (name, birthdate, date_of_death) is stored
    under a new id, and reading that id back gives a record with exactly
    the three submitted values. *)
Theorem add_author_read_back (form : Form) (db : Store)
  (name birthdate date_of_death : string) :
  form_get "name" form = Some name ->
  form_get "birthdate" form = Some birthdate ->
  form_get "date_of_death" form = Some date_of_death ->
  exists new_id,
    (forall a, In a (authors db) -> Author.author_id a <> new_id) /\
    fst (add_author POST form db) =
      Body "New author successfully added to database" 200 /\
    author_get new_id (authors (snd (add_author POST form db))) =
      Some (Author.mk new_id name (Some birthdate) (Some date_of_death)).
Proof.
  intros Hname Hbirth Hdeath.
  exists (next_rowid (map Author.author_id (authors db))).
  assert (forall a, In a (authors db) ->
            Author.author_id a <>
            next_rowid (map Author.author_id (authors db))) as Hfresh.
  { intros a Hin.
    assert (Author.author_id a < next_rowid (map Author.author_id (authors db)))
      by (apply next_rowid_fresh; now apply in_map).
    lia. }
  split; [exact Hfresh|].
  unfold add_author. rewrite Hname, Hbirth, Hdeath.
  cbn [fst snd authors]. split; [reflexivity|].
  apply (author_get_appended
           (Author.mk (next_rowid (map Author.author_id (authors db)))
                      name (Some birthdate) (Some date_of_death))).
  exact Hfresh.
Qed.

Lemma add_author_read_back_witness :
  exists new_id,
    (forall a, In a (authors austen_library) -> Author.author_id a <> new_id) /\
    fst (add_author POST [("name", "Mary Shelley"); ("birthdate", "1797");
                          ("date_of_death", "1851")] austen_library) =
      Body "New author successfully added to database" 200 /\
    author_get new_id
      (authors (snd (add_author POST [("name", "Mary Shelley");
                                      ("birthdate", "1797");
                                      ("date_of_death", "1851")]
                                austen_library))) =
      Some (Author.mk new_id "Mary Shelley" (Some "1797") (Some "1851")).
Proof.
  apply (add_author_read_back _ austen_library
           "Mary Shelley" "1797" "1851"); reflexivity.
Defined.

(** ** The cover-image lookup and adding a book *)

Lemma fetch_book_image_try_found (network : string -> Reply)
  (title isbn : string) (v : json) :
  lookup_finds network title isbn v ->
  fetch_book_image_try network title isbn = Return (Some v).
Proof.
  intros [data [Hreply Hpath]].
  unfold fetch_book_image_try, requests_get. cbv zeta.
  unfold lookup_url in Hreply. rewrite Hreply. cbn [py_bind response_json].
  destruct data as [| | | |items|fields]; try discriminate Hpath.
  cbn in Hpath. cbn [py_in py_bind].
  destruct (dict_lookup "items" fields) as [items|] eqn:Hitems;
    [|discriminate Hpath].
  cbn [py_getitem py_bind]. rewrite Hitems. cbn [py_bind].
  destruct items as [| | | |[|first rest]|]; try discriminate Hpath.
  cbn in Hpath. cbn [py_getitem0 py_bind].
  destruct first as [| | | | |info]; try discriminate Hpath.
  cbn [py_getitem].
  destruct (dict_lookup "volumeInfo" info) as [volume_info|];
    [|discriminate Hpath].
  cbn [py_bind].
  destruct volume_info as [| | | | |links]; try discriminate Hpath.
  cbn [py_get py_bind].
  destruct (dict_lookup "imageLinks" links) as [image_links|];
    [|discriminate Hpath].
  destruct image_links as [| | | | |thumbs]; try discriminate Hpath.
  cbn [py_get py_bind].
  destruct (dict_lookup "thumbnail" thumbs) as [thumbnail|];
    [|discriminate Hpath].
  now injection Hpath as ->.
Qed.

Lemma fetch_book_image_missing_field (network : string -> Reply)
  (title isbn : string) (data : json) :
  network (lookup_url title isbn) = Replied (Some data) ->
  json_path data thumbnail_path = None ->
  fetch_book_image network title isbn = JStr "".
Proof.
  intros Hreply Hpath.
  unfold fetch_book_image, fetch_book_image_try, requests_get. cbv zeta.
  unfold lookup_url in Hreply. rewrite Hreply. cbn [py_bind response_json].
  destruct data as [| | |s|items|fields]; try reflexivity.
  - cbn [py_in py_bind py_getitem]. now destruct (str_contains "items" s).
  - cbn [py_in py_bind py_getitem]. now destruct (existsb _ items).
  - cbn in Hpath. cbn [py_in py_bind].
    destruct (dict_lookup "items" fields) as [items|] eqn:Hitems;
      [|reflexivity].
    cbn [py_getitem py_bind]. rewrite Hitems. cbn [py_bind].
    destruct items as [| | |s|[|first rest]|]; try reflexivity.
    + cbn [py_getitem0]. now destruct (utf8_uncons s) as [[c rest]|].
    + cbn in Hpath. cbn [py_getitem0 py_bind].
      destruct first as [| | | | |info]; try reflexivity.
      cbn [py_getitem].
      destruct (dict_lookup "volumeInfo" info) as [volume_info|];
        [|reflexivity].
      cbn [py_bind].
      destruct volume_info as [| | | | |links]; try reflexivity.
      cbn [py_get py_bind].
      destruct (dict_lookup "imageLinks" links) as [image_links|];
        [|reflexivity].
      destruct image_links as [| | | | |thumbs]; try reflexivity.
      cbn [py_get py_bind dict_lookup].
      destruct (dict_lookup "thumbnail" thumbs) as [thumbnail|];
        [discriminate Hpath | reflexivity].
Qed.

Lemma fetch_book_image_failure (network : string -> Reply)
  (title isbn : string) :
  lookup_fails network title isbn ->
  fetch_book_image network title isbn = JStr "".
Proof.
  intros [Hdown | [Hbad | [data [Hreply Hpath]]]].
  - unfold fetch_book_image, fetch_book_image_try, requests_get. cbv zeta.
    unfold lookup_url in Hdown. now rewrite Hdown.
  - unfold fetch_book_image, fetch_book_image_try, requests_get. cbv zeta.
    unfold lookup_url in Hbad. now rewrite Hbad.
  - now apply (fetch_book_image_missing_field network title isbn data).
Qed.

(** X21: when the cover lookup gets no answer, an answer that is not
    JSON, or an answer in which a field on the way to the thumbnail is
    missing, [fetch_book_image] returns the empty string without raising,
    and the posted book is created and committed with that empty
    [image_url]. *)
Theorem add_book_survives_lookup_failure
  (integer_affinity : string -> sqlval) (network : string -> Reply)
  (form : Form) (db : Store) (title isbn publication_year author_id : string) :
  form_get "title" form = Some title ->
  form_get "isbn" form = Some isbn ->
  form_get "publication_year" form = Some publication_year ->
  form_get "author_id" form = Some author_id ->
  lookup_fails network title isbn ->
  fetch_book_image network title isbn = JStr "" /\
  add_book integer_affinity network POST form db =
    Return (Body "New book successfully added to database" 200,
            mkStore (authors db)
                    (books db ++
                     [Book.mk (next_rowid (map Book.book_id (books db)))
                              isbn title
                              (integer_affinity publication_year)
                              (integer_affinity author_id)
                              (Some "")])).
Proof.
  intros Htitle Hisbn Hyear Hauthor Hfails.
  pose proof (fetch_book_image_failure network title isbn Hfails) as Himage.
  split; [exact Himage|].
  unfold add_book. rewrite Htitle, Hisbn, Hyear, Hauthor, Himage.
  reflexivity.
Qed.

Lemma add_book_survives_lookup_failure_witness :
  fetch_book_image network_down "Emma" "123" = JStr "" /\
  add_book decimal_affinity network_down POST emma_form
           (mkStore [jane_austen] []) =
    Return (Body "New book successfully added to database" 200,
            mkStore [jane_austen] [emma]).
Proof.
  apply (add_book_survives_lookup_failure decimal_affinity network_down
           emma_form (mkStore [jane_austen] []) "Emma" "123" "1815" "1");
    try reflexivity.
  left. reflexivity.
Defined.

(** C4, evaluated where it fails: a malformed answer whose thumbnail
    is a list is not turned into the empty string; [fetch_book_image]
    hands the list on, binding it raises, and the posted book is not
    created.  A thumbnail that is null is handed on as well, and the book
    is stored with a NULL [image_url], not the empty string. *)
Theorem add_book_fails_on_malformed_thumbnail :
  fetch_book_image (reply_with (JList [JStr emma_cover])) "Emma" "123"
    = JList [JStr emma_cover]
  /\ add_book decimal_affinity (reply_with (JList [JStr emma_cover]))
               POST emma_form (mkStore [jane_austen] [])
    = Raise InterfaceError
  /\ fetch_book_image (reply_with JNull) "Emma" "123" = JNull
  /\ add_book decimal_affinity (reply_with JNull)
               POST emma_form (mkStore [jane_austen] [])
    = Return (Body "New book successfully added to database" 200,
              mkStore [jane_austen]
                      [Book.mk 1 "123" "Emma" (SqlInt 1815) (SqlInt 1) None]).
Proof.
  split; [reflexivity|]. split; [reflexivity|].
  split; [reflexivity|]. reflexivity.
Qed.

(** C5: when the lookup answers with a thumbnail URL string, the created
    book carries exactly that string as its [image_url]. *)
Theorem add_book_stores_thumbnail_verbatim
  (integer_affinity : string -> sqlval) (network : string -> Reply)
  (form : Form) (db : Store) (title isbn publication_year author_id : string)
  (thumbnail : string) :
  form_get "title" form = Some title ->
  form_get "isbn" form = Some isbn ->
  form_get "publication_year" form = Some publication_year ->
  form_get "author_id" form = Some author_id ->
  lookup_finds network title isbn (JStr thumbnail) ->
  add_book integer_affinity network POST form db =
    Return (Body "New book successfully added to database" 200,
            mkStore (authors db)
                    (books db ++
                     [Book.mk (next_rowid (map Book.book_id (books db)))
                              isbn title
                              (integer_affinity publication_year)
                              (integer_affinity author_id)
                              (Some thumbnail)])).
Proof.
  intros Htitle Hisbn Hyear Hauthor Hfinds.
  unfold add_book. rewrite Htitle, Hisbn, Hyear, Hauthor.
  unfold fetch_book_image.
  rewrite (fetch_book_image_try_found network title isbn _ Hfinds).
  reflexivity.
Qed.

Lemma add_book_stores_thumbnail_verbatim_witness :
  add_book decimal_affinity network_with_cover POST emma_form
           (mkStore [jane_austen] []) =
    Return (Body "New book successfully added to database" 200,
            mkStore [jane_austen]
                    [Book.mk 1 "123" "Emma" (SqlInt 1815) (SqlInt 1)
                             (Some emma_cover)]).
Proof.
  apply (add_book_stores_thumbnail_verbatim decimal_affinity
           network_with_cover emma_form (mkStore [jane_austen] [])
           "Emma" "123" "1815" "1" emma_cover); try reflexivity.
  eexists. split; reflexivity.
Defined.

(** ** More on deleting a book *)

Lemma sql_in_member (x : sqlval) (vs : list sqlval) :
  x <> SqlNull -> In x vs -> sql_in x vs = Some true.
Proof.
  intros Hx. induction vs as [|v vs IH]; simpl; [tauto|].
  intros [-> | Hin].
  - assert (sql_eq x x = Some true) as ->; [|reflexivity].
    destruct x as [|z|s]; simpl; [congruence | | ].
    + now rewrite Z.eqb_refl.
    + now rewrite String.eqb_refl.
  - rewrite (IH Hin). now destruct (sql_eq x v) as [[|]|].
Qed.

(** Dropping rows from a table cannot make two of its keys collide. *)
Lemma filter_keeps_keys_unique (Row : Type) (key : Row -> Z)
  (keep : Row -> bool) (rows : list Row) :
  NoDup (map key rows) -> NoDup (map key (filter keep rows)).
Proof.
  induction rows as [|row rows IH]; cbn [map filter]; [trivial|].
  rewrite NoDup_cons_iff. intros [Hnew Hrest].
  destruct (keep row); cbn [map]; [|now apply IH].
  rewrite NoDup_cons_iff. split; [|now apply IH].
  intros Hin. apply Hnew.
  now apply (incl_map key (incl_filter keep rows)).
Qed.

(** X1: [delete] never adds an author and never changes one: every author
    of the store after the request was in the store before it. *)
Theorem delete_never_adds_authors (book_id : Z) (db : Store) :
  incl (authors (snd (delete book_id db))) (authors db).
Proof.
  unfold delete. destruct (book_get book_id (books db)); cbn [snd authors].
  - unfold sweep_authors. intros a Hin. now apply filter_In in Hin.
  - destruct (fits_int64 book_id); apply incl_refl.
Qed.

(** X2: [delete] never removes an author that a remaining book still
    references, whatever else the book table holds. *)
Theorem delete_keeps_referenced_authors (book_id : Z) (db : Store)
  (a : Author.t) (b : Book.t) :
  In a (authors db) ->
  In b (books db) ->
  Book.book_id b <> book_id ->
  references b a ->
  In a (authors (snd (delete book_id db))).
Proof.
  intros Ha Hb Hne Href. unfold delete.
  destruct (book_get book_id (books db)); cbn [snd authors books];
    [|now destruct (fits_int64 book_id)].
  unfold sweep_authors. apply filter_In. split; [exact Ha|].
  unfold without_books, authors_ids_with_books.
  rewrite sql_in_member; [reflexivity | discriminate |].
  apply distinct_In, in_map_iff. exists b. split; [exact Href|].
  now apply delete_book_In.
Qed.

Lemma delete_keeps_referenced_authors_witness :
  In jane_austen (authors (snd (delete 3 mixed_library))).
Proof.
  apply (delete_keeps_referenced_authors 3 mixed_library jane_austen emma).
  - now left.
  - now left.
  - simpl. lia.
  - reflexivity.
Defined.



Lemma delete_sweeps_orphans_without_null_witness :
  orphans_swept (mkStore [jane_austen] [emma])
                (snd (delete 1 (mkStore [jane_austen] [emma])))
  /\ authors (snd (delete 1 (mkStore [jane_austen] [emma]))) = [].
Proof.
  split; [|reflexivity].
  apply (delete_sweeps_orphans_without_null 1 (mkStore [jane_austen] [emma])).
  - exists emma. split; [now left | reflexivity].
  - intros b [<- | []] Hne. exfalso. now apply Hne.
Defined.

(** X5: [delete] keeps the primary keys unique. *)
Theorem delete_keeps_unique_ids (book_id : Z) (db : Store) :
  unique_ids db -> unique_ids (snd (delete book_id db)).
Proof.
  intros [Hauthors Hbooks]. unfold delete.
  destruct (book_get book_id (books db)); cbn [snd];
    [|now destruct (fits_int64 book_id)].
  split; cbn [authors books].
  - now apply filter_keeps_keys_unique.
  - now apply filter_keeps_keys_unique.
Qed.

Lemma delete_keeps_unique_ids_witness :
  unique_ids (snd (delete 1 austen_library)).
Proof.
  apply (delete_keeps_unique_ids 1 austen_library).
  split; simpl; repeat constructor; simpl; intuition lia.
Defined.

(** ** More on adding authors and books *)

Lemma NoDup_map_appended (A : Type) (f : A -> Z) (l : list A) (x : A) :
  NoDup (map f l) ->
  (forall y, In y l -> f y <> f x) ->
  NoDup (map f (l ++ [x])).
Proof.
  intros Hnodup Hfresh. rewrite map_app. simpl.
  apply NoDup_app; [exact Hnodup | repeat constructor; tauto |].
  intros z Hz [<- | []].
  apply in_map_iff in Hz as [y [Heq Hy]]. now apply (Hfresh y).
Qed.

Lemma next_rowid_unused (A : Type) (f : A -> Z) (l : list A) (y : A) :
  In y l -> f y <> next_rowid (map f l).
Proof.
  intros Hin.
  assert (f y < next_rowid (map f l))
    by (apply next_rowid_fresh; now apply in_map).
  lia.
Qed.

Lemma author_get_kept (author_id : Z) (rows extra : list Author.t)
  (a : Author.t) :
  author_get author_id rows = Some a ->
  author_get author_id (rows ++ extra) = Some a.
Proof.
  unfold author_get. induction rows as [|x rows IH]; simpl; [discriminate|].
  destruct (Author.author_id x =? author_id); [trivial | exact IH].
Qed.

Lemma book_get_appended (b : Book.t) (rows : list Book.t) :
  (forall x, In x rows -> Book.book_id x <> Book.book_id b) ->
  book_get (Book.book_id b) (rows ++ [b]) = Some b.
Proof.
  unfold book_get. induction rows as [|x rows IH]; simpl; intros Hfresh.
  - now rewrite Z.eqb_refl.
  - destruct (Book.book_id x =? Book.book_id b) eqn:Heq.
    + apply Z.eqb_eq in Heq. exfalso. apply (Hfresh x); [now left | exact Heq].
    + apply IH. intros y Hy. apply Hfresh. now right.
Qed.

(** X6: a POST to [add_author] that lacks one of the three fields is a
    bad request; no author is created. *)
Theorem add_author_missing_field (form : Form) (db : Store) :
  form_get "name" form = None \/
  form_get "birthdate" form = None \/
  form_get "date_of_death" form = None ->
  add_author POST form db = (BadRequest, db).
Proof.
  intros Hmissing. unfold add_author.
  destruct (form_get "name" form); [|reflexivity].
  destruct (form_get "birthdate" form); [|reflexivity].
  destruct (form_get "date_of_death" form); [|reflexivity].
  destruct Hmissing as [H | [H | H]]; discriminate H.
Qed.

Lemma add_author_missing_field_witness :
  add_author POST [("name", "Mary Shelley"); ("birthdate", "1797")]
             austen_library = (BadRequest, austen_library).
Proof.
  apply (add_author_missing_field _ austen_library).
  right. right. reflexivity.
Defined.

(** X7: [add_author] leaves the book table alone, and whatever an author
    id read before the request, it reads the same after it. *)
Theorem add_author_keeps_existing (method : Method) (form : Form)
  (db : Store) (author_id : Z) (a : Author.t) :
  author_get author_id (authors db) = Some a ->
  books (snd (add_author method form db)) = books db /\
  author_get author_id (authors (snd (add_author method form db))) = Some a.
Proof.
  intros Hget. unfold add_author.
  destruct method; [now split|].
  destruct (form_get "name" form); [|now split].
  destruct (form_get "birthdate" form); [|now split].
  destruct (form_get "date_of_death" form); [|now split].
  cbn [snd authors books]. split; [reflexivity|].
  now apply author_get_kept.
Qed.

Lemma add_author_keeps_existing_witness :
  books (snd (add_author POST [("name", "Mary Shelley"); ("birthdate", "1797");
                               ("date_of_death", "1851")] austen_library))
    = [emma; persuasion] /\
  author_get 1
    (authors (snd (add_author POST [("name", "Mary Shelley");
                                    ("birthdate", "1797");
                                    ("date_of_death", "1851")]
                              austen_library)))
    = Some jane_austen.
Proof.
  apply (add_author_keeps_existing POST _ austen_library 1 jane_austen).
  reflexivity.
Defined.

(** X8: [add_author] keeps the primary keys unique. *)
Theorem add_author_keeps_unique_ids (method : Method) (form : Form)
  (db : Store) :
  unique_ids db -> unique_ids (snd (add_author method form db)).
Proof.
  intros [Hauthors Hbooks]. unfold add_author.
  destruct method; [now split|].
  destruct (form_get "name" form); [|now split].
  destruct (form_get "birthdate" form); [|now split].
  destruct (form_get "date_of_death" form); [|now split].
  split; cbn [snd authors books]; [|exact Hbooks].
  apply NoDup_map_appended; [exact Hauthors|].
  intros y Hy. cbn [Author.author_id]. now apply next_rowid_unused.
Qed.

Lemma add_author_keeps_unique_ids_witness :
  unique_ids (snd (add_author POST [("name", "Mary Shelley");
                                    ("birthdate", "1797");
                                    ("date_of_death", "1851")]
                              austen_library)).
Proof.
  apply (add_author_keeps_unique_ids POST _ austen_library).
  split; simpl; repeat constructor; simpl; intuition lia.
Defined.

(** X9: a POST to [add_book] that lacks one of the four fields is a bad
    request whatever the network would answer; no book is created. *)
Theorem add_book_missing_field (integer_affinity : string -> sqlval)
  (network : string -> Reply) (form : Form) (db : Store) :
  form_get "title" form = None \/
  form_get "isbn" form = None \/
  form_get "publication_year" form = None \/
  form_get "author_id" form = None ->
  add_book integer_affinity network POST form db = Return (BadRequest, db).
Proof.
  intros Hmissing. unfold add_book.
  destruct (form_get "title" form); [|reflexivity].
  destruct (form_get "isbn" form); [|reflexivity].
  destruct (form_get "publication_year" form); [|reflexivity].
  destruct (form_get "author_id" form); [|reflexivity].
  destruct Hmissing as [H | [H | [H | H]]]; discriminate H.
Qed.

Lemma add_book_missing_field_witness :
  add_book decimal_affinity network_with_cover POST
           [("title", "Emma"); ("isbn", "123"); ("author_id", "1")]
           austen_library = Return (BadRequest, austen_library).
Proof.
  apply (add_book_missing_field decimal_affinity network_with_cover
           _ austen_library).
  right. right. left. reflexivity.
Defined.

(** What a POST to [add_book] that answers with the success message has
    done to the store. *)
Lemma add_book_success (integer_affinity : string -> sqlval)
  (network : string -> Reply) (form : Form) (db db' : Store) :
  add_book integer_affinity network POST form db =
    Return (Body "New book successfully added to database" 200, db') ->
  exists b,
    db' = mkStore (authors db) (books db ++ [b])%list /\
    Book.book_id b = next_rowid (map Book.book_id (books db)) /\
    form_get "title" form = Some (Book.title b) /\
    form_get "isbn" form = Some (Book.isbn b).
Proof.
  unfold add_book.
  destruct (form_get "title" form) as [title|]; [|discriminate].
  destruct (form_get "isbn" form) as [isbn|]; [|discriminate].
  destruct (form_get "publication_year" form) as [year|]; [|discriminate].
  destruct (form_get "author_id" form) as [author|]; [|discriminate].
  destruct (bind_image_url _) as [stored|e]; cbn [py_bind]; [|discriminate].
  intros H. injection H as <-. eexists. repeat split.
Qed.

(** X10: after a POST to [add_book] that answers with the success
    message, the author table is as before, the book table has one more
    row under an id no book had, and reading that id back gives the row
    with the posted title and isbn. *)
Theorem add_book_read_back (integer_affinity : string -> sqlval)
  (network : string -> Reply) (form : Form) (db db' : Store) :
  add_book integer_affinity network POST form db =
    Return (Body "New book successfully added to database" 200, db') ->
  exists b,
    authors db' = authors db /\
    books db' = (books db ++ [b])%list /\
    (forall b0, In b0 (books db) -> Book.book_id b0 <> Book.book_id b) /\
    book_get (Book.book_id b) (books db') = Some b /\
    form_get "title" form = Some (Book.title b) /\
    form_get "isbn" form = Some (Book.isbn b).
Proof.
  intros Hadd.
  apply add_book_success in Hadd as [b [-> [Hid [Htitle Hisbn]]]].
  assert (forall b0, In b0 (books db) -> Book.book_id b0 <> Book.book_id b)
    as Hfresh by (intros b0 Hin; rewrite Hid; now apply next_rowid_unused).
  exists b. cbn [authors books]. repeat split; try assumption.
  now apply book_get_appended.
Qed.

Lemma add_book_read_back_witness :
  exists b,
    authors (mkStore [jane_austen] [emma]) = [jane_austen] /\
    books (mkStore [jane_austen] [emma]) = ([] ++ [b])%list /\
    (forall b0, In b0 [] -> Book.book_id b0 <> Book.book_id b) /\
    book_get (Book.book_id b) (books (mkStore [jane_austen] [emma])) = Some b /\
    form_get "title" emma_form = Some (Book.title b) /\
    form_get "isbn" emma_form = Some (Book.isbn b).
Proof.
  apply (add_book_read_back decimal_affinity network_down emma_form
           (mkStore [jane_austen] []) (mkStore [jane_austen] [emma])).
  reflexivity.
Defined.

(** X11: [add_book] keeps the primary keys unique. *)
Theorem add_book_keeps_unique_ids (integer_affinity : string -> sqlval)
  (network : string -> Reply) (method : Method) (form : Form)
  (db db' : Store) (response : Response) :
  unique_ids db ->
  add_book integer_affinity network method form db = Return (response, db') ->
  unique_ids db'.
Proof.
  intros [Hauthors Hbooks]. unfold add_book.
  destruct method; [intros H; injection H as _ <-; now split|].
  destruct (form_get "title" form) as [title|];
    [|intros H; injection H as _ <-; now split].
  destruct (form_get "isbn" form) as [isbn|];
    [|intros H; injection H as _ <-; now split].
  destruct (form_get "publication_year" form) as [year|];
    [|intros H; injection H as _ <-; now split].
  destruct (form_get "author_id" form) as [author|];
    [|intros H; injection H as _ <-; now split].
  destruct (bind_image_url _) as [stored|e]; cbn [py_bind]; [|discriminate].
  intros H. injection H as _ <-. split; cbn [authors books]; [exact Hauthors|].
  apply NoDup_map_appended; [exact Hbooks|].
  intros y Hy. cbn [Book.book_id]. now apply next_rowid_unused.
Qed.

Lemma add_book_keeps_unique_ids_witness :
  unique_ids (mkStore [jane_austen] [emma; dracula]).
Proof.
  apply (add_book_keeps_unique_ids decimal_affinity network_down POST
           dracula_form (mkStore [jane_austen] [emma])
           (mkStore [jane_austen] [emma; dracula])
           (Body "New book successfully added to database" 200)).
  - split; simpl; repeat constructor; simpl; intuition lia.
  - reflexivity.
Defined.

(** X12: deleting the book a successful POST to [add_book] has just
    created gives back the book table as it was before the POST. *)
Theorem add_book_then_delete (integer_affinity : string -> sqlval)
  (network : string -> Reply) (form : Form) (db db' : Store) :
  add_book integer_affinity network POST form db =
    Return (Body "New book successfully added to database" 200, db') ->
  fst (delete (next_rowid (map Book.book_id (books db))) db')
    = Redirect "home" /\
  books (snd (delete (next_rowid (map Book.book_id (books db))) db'))
    = books db.
Proof.
  intros Hadd.
  apply add_book_success in Hadd as [b [-> [Hid _]]].
  assert (forall b0, In b0 (books db) -> Book.book_id b0 <> Book.book_id b)
    as Hfresh by (intros b0 Hin; rewrite Hid; now apply next_rowid_unused).
  rewrite <- Hid. unfold delete. cbn [books authors].
  rewrite (book_get_appended b (books db) Hfresh). cbn [fst snd books].
  split; [reflexivity|].
  unfold delete_book. rewrite filter_app. cbn [filter].
  rewrite Z.eqb_refl. cbn [negb]. rewrite app_nil_r.
  apply filter_all. intros b0 Hin.
  apply negb_true_iff, Z.eqb_neq. now apply Hfresh.
Qed.

Lemma add_book_then_delete_witness :
  fst (delete 2 (mkStore [jane_austen] [emma; dracula])) = Redirect "home" /\
  books (snd (delete 2 (mkStore [jane_austen] [emma; dracula]))) = [emma].
Proof.
  apply (add_book_then_delete decimal_affinity network_down dracula_form
           (mkStore [jane_austen] [emma])
           (mkStore [jane_austen] [emma; dracula])).
  reflexivity.
Defined.

(** X13: an author added through the form and read back prints with the
    submitted texts: [__str__] as [name (birthdate-date_of_death)] and
    [__repr__] as the three labelled fields; "None" never shows. *)
Theorem add_author_then_str (form : Form) (db : Store)
  (name birthdate date_of_death : string) :
  form_get "name" form = Some name ->
  form_get "birthdate" form = Some birthdate ->
  form_get "date_of_death" form = Some date_of_death ->
  exists a,
    author_get (next_rowid (map Author.author_id (authors db)))
               (authors (snd (add_author POST form db))) = Some a /\
    Author__str__ a =
      name ++ " (" ++ birthdate ++ "-" ++ date_of_death ++ ")" /\
    Author__repr__ a =
      "name=" ++ name ++ ", birth_date=" ++ birthdate ++
      ", date_of_death=" ++ date_of_death.
Proof.
  intros Hname Hbirth Hdeath.
  exists (Author.mk (next_rowid (map Author.author_id (authors db)))
                    name (Some birthdate) (Some date_of_death)).
  unfold add_author. rewrite Hname, Hbirth, Hdeath. cbn [snd authors].
  split; [|split; reflexivity].
  apply (author_get_appended
           (Author.mk (next_rowid (map Author.author_id (authors db)))
                      name (Some birthdate) (Some date_of_death))).
  intros x Hx. cbn [Author.author_id]. now apply next_rowid_unused.
Qed.

Lemma add_author_then_str_witness :
  exists a,
    author_get 1 (authors (snd (add_author POST
       [("name", "Jane Austen"); ("birthdate", "1775");
        ("date_of_death", "1817")] (mkStore [] [])))) = Some a /\
    Author__str__ a = "Jane Austen (1775-1817)" /\
    Author__repr__ a =
      "name=Jane Austen, birth_date=1775, date_of_death=1817".
Proof.
  apply (add_author_then_str _ (mkStore [] [])
           "Jane Austen" "1775" "1817"); reflexivity.
Defined.

(** ** More on the cover-image lookup *)

(** X14: [fetch_book_image] returns the empty string, or else what the
    answer holds at [items[0].volumeInfo.imageLinks.thumbnail]; it never
    makes up anything else. *)
Theorem fetch_book_image_empty_or_thumbnail (network : string -> Reply)
  (title isbn : string) :
  fetch_book_image network title isbn = JStr "" \/
  lookup_finds network title isbn (fetch_book_image network title isbn).
Proof.
  destruct (network (lookup_url title isbn)) as [|[data|]] eqn:Hreply.
  - left. apply fetch_book_image_failure. now left.
  - destruct (json_path data thumbnail_path) as [v|] eqn:Hpath.
    + right.
      assert (lookup_finds network title isbn v) as Hfinds
        by (exists data; now split).
      unfold fetch_book_image.
      now rewrite (fetch_book_image_try_found network title isbn v Hfinds).
    + left. now apply (fetch_book_image_missing_field network title isbn data).
  - left. apply fetch_book_image_failure. right. now left.
Qed.

(** ** More on sorting by author *)

Lemma join_author_In (db : Store) (b : Book.t) (a : Author.t) :
  In (b, a) (join_author db) <->
  In b (books db) /\ In a (authors db) /\ references b a.
Proof.
  unfold join_author. rewrite in_flat_map. split.
  - intros [b' [Hb Hin]]. apply in_map_iff in Hin as [a' [Heq Ha]].
    injection Heq as -> ->. apply join_matches_In in Ha. tauto.
  - intros [Hb [Ha Href]]. exists b. split; [exact Hb|].
    apply in_map. apply join_matches_In. tauto.
Qed.

(** X20: in every store, [sort_by_author] lists the books of the pairs
    (book, author) in which the book's [author_id] is the author's id,
    and only those, in an order in which the authors' names never
    decrease; the store is not touched. *)
Theorem sort_by_author_lists_joined_pairs (db : Store) :
  exists rows,
    sort_by_author db = (RenderBooks "home.html" (map fst rows), db) /\
    non_decreasing (fun r => Author.name (snd r)) rows /\
    forall b a,
      In (b, a) rows <->
      In b (books db) /\ In a (authors db) /\ references b a.
Proof.
  exists (order_by (fun r => Author.name (snd r)) (join_author db)).
  split; [reflexivity|]. split; [apply order_by_non_decreasing|].
  intros b a. rewrite <- join_author_In. split.
  - apply Permutation_in, Permutation_sym, order_by_Permutation.
  - apply Permutation_in, order_by_Permutation.
Qed.

Lemma sort_by_author_all_books_when_referenced_witness :
  exists rows,
    sort_by_author austen_library
      = (RenderBooks "home.html" (map fst rows), austen_library) /\
    Permutation (books austen_library) (map fst rows) /\
    non_decreasing (fun r => Author.name (snd r)) rows /\
    forall b a,
      In (b, a) rows -> In a (authors austen_library) /\ references b a.
Proof.
  apply (sort_by_author_all_books_when_referenced austen_library).
  - simpl. repeat constructor. simpl. tauto.
  - intros b [<- | [<- | []]]; exists jane_austen;
      (split; [now left | reflexivity]).
Defined.

(** ** Searching by title *)

Lemma ascii_lower_idempotent (c : ascii) :
  ascii_lower (ascii_lower c) = ascii_lower c.
Proof. destruct c as [[] [] [] [] [] [] [] []]; reflexivity. Qed.



Lemma lower_app (s t : string) : lower (s ++ t) = lower s ++ lower t.
Proof. induction s as [|c s IH]; simpl; [reflexivity | now rewrite IH]. Qed.

Lemma lower_bytes (s : string) :
  list_ascii_of_string (lower s) = map ascii_lower (list_ascii_of_string s).
Proof. induction s as [|c s IH]; simpl; [reflexivity | now rewrite IH]. Qed.

Lemma byte_length_lower (s : string) : byte_length (lower s) = byte_length s.
Proof. induction s as [|c s IH]; simpl; [reflexivity | now rewrite IH]. Qed.

Lemma byte_length_app (s t : string) :
  byte_length (s ++ t) = byte_length s + byte_length t.
Proof.
  induction s as [|c s IH]; cbn [append byte_length]; [lia | rewrite IH; lia].
Qed.







Lemma utf8_step_end (pending : option N) (n : N) (done : list N) :
  utf8_step pending n = (done, None) -> n = 0%N.
Proof.
  unfold utf8_step.
  destruct (n =? 0)%N eqn:Hzero; [intros _; now apply N.eqb_eq|].
  destruct pending as [c|];
    repeat match goal with
           | |- context [if ?x then _ else _] => destruct x
           end;
    cbn [fst snd]; intros H; discriminate H.
Qed.

(** A [%] put after a text without NUL is one more character at its
    end. *)
Lemma text_chars_then_percent (s : string) :
  (forall b, In b (list_ascii_of_string s) -> b <> "000"%char) ->
  forall pending,
    text_chars_from pending (s ++ "%") =
    (text_chars_from pending s ++ [37%N])%list.
Proof.
  induction s as [|b s IH]; intros Hbytes pending.
  - destruct pending; reflexivity.
  - cbn [append text_chars_from].
    destruct (utf8_step pending (N_of_ascii b)) as [done [next|]] eqn:Hstep.
    + rewrite IH by (intros b' Hb'; apply Hbytes; now right).
      now rewrite app_assoc.
    + apply utf8_step_end in Hstep. exfalso.
      apply (Hbytes b); [now left|].
      rewrite <- (ascii_N_embedding b), Hstep. reflexivity.
Qed.

(** The pattern of [home] for a term without NUL, in characters. *)
Lemma pattern_chars (term : string) :
  (forall b, In b (list_ascii_of_string term) -> b <> "000"%char) ->
  text_chars (lower ("%" ++ term ++ "%")) =
  (37%N :: text_chars (lower term) ++ [37%N])%list.
Proof.
  intros Hbytes.
  change ("%" ++ term ++ "%") with (String "%" (term ++ "%")).
  cbn [lower]. rewrite lower_app.
  change (lower "%") with "%".
  unfold text_chars. cbn [text_chars_from].
  change (utf8_step None (N_of_ascii (ascii_lower "%")))
    with (([37%N] : list N), Some (@None N)).
  cbn [app]. f_equal. apply text_chars_then_percent.
  intros b Hb. rewrite lower_bytes in Hb.
  apply in_map_iff in Hb as [b0 [<- Hb0]].
  specialize (Hbytes b0 Hb0).
  destruct b0 as [[] [] [] [] [] [] [] []]; try discriminate.
  exfalso. now apply Hbytes.
Qed.

Lemma like_percent_unfold (pattern text : list N) :
  like (37%N :: pattern) text =
  like pattern text ||
  match text with
  | [] => false
  | _ :: text' => like (37%N :: pattern) text'
  end.
Proof. destruct text; reflexivity. Qed.

Lemma like_percent_all (text : list N) : like [37%N] text = true.
Proof.
  induction text as [|c text IH]; [reflexivity|].
  rewrite like_percent_unfold, IH. apply orb_true_r.
Qed.





Lemma starts_with_iff (run text : list N) :
  starts_with run text = true <-> exists post, text = (run ++ post)%list.
Proof.
  revert text. induction run as [|r run IH]; intros text.
  - cbn [starts_with app]. split; eauto.
  - destruct text as [|c text]; cbn [starts_with].
    + split; [discriminate | intros [post H]; discriminate H].
    + rewrite andb_true_iff, N.eqb_eq, IH. split.
      * intros [-> [post ->]]. now exists post.
      * intros [post H]. injection H as -> ->. split; [reflexivity|].
        now exists post.
Qed.

(** What [contains_run] decides. *)
Lemma contains_run_iff (run text : list N) :
  contains_run run text = true <->
  exists pre post, text = (pre ++ run ++ post)%list.
Proof.
  induction text as [|c text IH]; cbn [contains_run].
  - rewrite orb_false_r, starts_with_iff. split.
    + intros [post H]. now exists [], post.
    + intros [pre [post H]]. destruct pre; [now exists post | discriminate H].
  - rewrite orb_true_iff, starts_with_iff, IH. split.
    + intros [[post H] | [pre [post H]]].
      * now exists [], post.
      * exists (c :: pre), post. cbn [app]. now rewrite H.
    + intros [pre [post H]]. destruct pre as [|d pre].
      * left. now exists post.
      * right. cbn [app] in H. injection H as _ H. now exists pre, post.
Qed.

Lemma pattern_length (term : string) :
  byte_length (lower ("%" ++ term ++ "%")) = byte_length term + 2.
Proof.
  rewrite byte_length_lower.
  change ("%" ++ term ++ "%") with (String "%" (term ++ "%")).
  cbn [byte_length]. rewrite byte_length_app. cbn [byte_length]. lia.
Qed.

Lemma pattern_within_limit (term : string) :
  byte_length term <= 49998 ->
  (like_pattern_limit <? byte_length (lower ("%" ++ term ++ "%"))) = false.
Proof.
  intros Hshort. rewrite pattern_length. apply Z.ltb_ge.
  unfold like_pattern_limit. lia.
Qed.




(** ** More on searching *)

Lemma no_nul_bytes (s : string) (b : ascii) :
  no_nul s = true -> In b (list_ascii_of_string s) -> b <> "000"%char.
Proof.
  induction s as [|c s IH]; cbn [no_nul list_ascii_of_string];
    [intros _ []|].
  intros Hnul [-> | Hin].
  - apply andb_true_iff in Hnul as [Hnul _].
    now apply negb_true_iff, Ascii.eqb_neq in Hnul.
  - apply andb_true_iff in Hnul as [_ Hnul]. now apply IH.
Qed.

(** A pattern matches a text that begins with the pattern's own
    characters, wildcards or not. *)
Lemma like_own_run (run text : list N) :
  starts_with run text = true -> like (run ++ [37%N]) text = true.
Proof.
  revert text. induction run as [|p run IH]; intros text Hstarts.
  - apply like_percent_all.
  - destruct text as [|c text]; [discriminate Hstarts|].
    cbn [starts_with] in Hstarts.
    apply andb_true_iff in Hstarts as [Heq Hstarts].
    apply N.eqb_eq in Heq. subst c. specialize (IH text Hstarts).
    cbn [app]. destruct (p =? 37)%N eqn:Hpercent.
    + apply N.eqb_eq in Hpercent. subst p.
      rewrite like_percent_unfold, like_percent_unfold, IH.
      now rewrite orb_true_r.
    + destruct (p =? 95)%N eqn:Hunder.
      * apply N.eqb_eq in Hunder. subst p. exact IH.
      * cbn [like]. rewrite Hpercent, Hunder, IH.
        unfold char_match. now rewrite N.eqb_refl.
Qed.

Lemma like_has_run (run text : list N) :
  contains_run run text = true ->
  like (37%N :: run ++ [37%N]) text = true.
Proof.
  induction text as [|c text IH]; cbn [contains_run];
    rewrite like_percent_unfold; intros Hin;
    apply orb_true_iff in Hin as [Hstarts | Hrest].
  - now rewrite (like_own_run run [] Hstarts).
  - discriminate Hrest.
  - now rewrite (like_own_run run (c :: text) Hstarts).
  - rewrite (IH Hrest). apply orb_true_r.
Qed.

(** X15: the search never misses: for every term without NUL and of at
    most 49998 bytes, wildcards included, every book whose title has the
    term in it is on the page. *)
Theorem home_search_finds_containing_title (form : Form) (db : Store)
  (term : string) (b : Book.t) :
  form_get "search" form = Some term ->
  no_nul term = true ->
  byte_length term <= 49998 ->
  In b (books db) ->
  title_has term (Book.title b) = true ->
  exists found,
    home POST form db = (RenderBooks "home.html" found, db) /\ In b found.
Proof.
  intros Hterm Hnul Hshort Hin Hhas. unfold home, books_ilike. rewrite Hterm.
  assert (In b (filter (fun b0 => ilike (Book.title b0) ("%" ++ term ++ "%"))
                       (books db))) as Hfound.
  { apply filter_In. split; [exact Hin|]. unfold ilike.
    rewrite pattern_chars
      by (intros c Hc; now apply (no_nul_bytes term c Hnul)).
    now apply like_has_run. }
  destruct (books db) as [|b1 rows]; [contradiction|].
  rewrite (pattern_within_limit term Hshort).
  destruct (filter _ (b1 :: rows)) as [|b2 found]; [contradiction|].
  exists (b2 :: found). now split.
Qed.

Lemma home_search_finds_containing_title_witness :
  exists found,
    home POST [("search", "100%")]
         (mkStore [] [Book.mk 1 "7" "100% Wolf" SqlNull SqlNull None])
      = (RenderBooks "home.html" found,
         mkStore [] [Book.mk 1 "7" "100% Wolf" SqlNull SqlNull None])
    /\ In (Book.mk 1 "7" "100% Wolf" SqlNull SqlNull None) found.
Proof.
  apply (home_search_finds_containing_title [("search", "100%")]
           (mkStore [] [Book.mk 1 "7" "100% Wolf" SqlNull SqlNull None])
           "100%").
  - reflexivity.
  - reflexivity.
  - vm_compute. discriminate.
  - now left.
  - reflexivity.
Defined.

Lemma lower_pattern (term : string) :
  lower ("%" ++ term ++ "%") = "%" ++ lower term ++ "%".
Proof.
  change ("%" ++ term ++ "%") with (String "%" (term ++ "%")).
  cbn [lower]. now rewrite lower_app.
Qed.

(** X16: two search terms that differ in ASCII letter case only get the
    same answer. *)
Theorem home_search_ignores_ascii_case (form1 form2 : Form) (db : Store)
  (term1 term2 : string) :
  form_get "search" form1 = Some term1 ->
  form_get "search" form2 = Some term2 ->
  lower term1 = lower term2 ->
  home POST form1 db = home POST form2 db.
Proof.
  intros H1 H2 Hsame. unfold home, books_ilike. rewrite H1, H2.
  assert (lower ("%" ++ term1 ++ "%") = lower ("%" ++ term2 ++ "%")) as Hpattern
    by (now rewrite !lower_pattern, Hsame).
  rewrite Hpattern.
  rewrite (filter_ext
             (fun b => ilike (Book.title b) ("%" ++ term1 ++ "%"))
             (fun b => ilike (Book.title b) ("%" ++ term2 ++ "%")));
    [reflexivity|].
  intros b. unfold ilike. now rewrite Hpattern.
Qed.

Lemma home_search_ignores_ascii_case_witness :
  home POST [("search", "EMMA")] austen_library =
  home POST [("search", "emma")] austen_library.
Proof.
  apply (home_search_ignores_ascii_case _ _ austen_library "EMMA" "emma");
    reflexivity.
Defined.

(** X18: an empty search term selects every book: the page lists the
    whole book table, or says "No books found" when the table is empty. *)
Theorem home_empty_search_lists_all (form : Form) (db : Store) :
  form_get "search" form = Some "" ->
  home POST form db =
    match books db with
    | [] => (Body "No books found" 200, db)
    | _ :: _ => (RenderBooks "home.html" (books db), db)
    end.
Proof.
  intros Hterm. unfold home, books_ilike. rewrite Hterm.
  destruct (books db) as [|b rows]; [reflexivity|].
  change (like_pattern_limit <? byte_length (lower ("%" ++ "" ++ "%")))
    with false.
  rewrite filter_all; [reflexivity|].
  intros b0 _. unfold ilike.
  change (text_chars (lower ("%" ++ "" ++ "%"))) with [37%N; 37%N].
  now rewrite like_percent_unfold, like_percent_all.
Qed.

Lemma home_empty_search_lists_all_witness :
  home POST [("search", "")] austen_library =
    (RenderBooks "home.html" [emma; persuasion], austen_library).
Proof.
  apply (home_empty_search_lists_all [("search", "")] austen_library).
  reflexivity.
Defined.

(** X19: a POST to [home] never changes the store and never renders an
    empty page: it is a bad request, the "No books found" message, a
    non-empty list of books of the store, or, for a term of more than
    49998 bytes on a store that has books, the 500 of the engine's
    refusal of the pattern. *)
Theorem home_post_answers (form : Form) (db : Store) :
  snd (home POST form db) = db /\
  (fst (home POST form db) = BadRequest \/
   fst (home POST form db) = Body "No books found" 200 \/
   (exists found,
      fst (home POST form db) = RenderBooks "home.html" found /\
      found <> [] /\ incl found (books db)) \/
   (fst (home POST form db) = InternalServerError OperationalError /\
    books db <> [] /\
    exists term,
      form_get "search" form = Some term /\ 49998 < byte_length term)).
Proof.
  unfold home, books_ilike.
  destruct (form_get "search" form) as [term|];
    [|split; [reflexivity | now left]].
  destruct (books db) as [|b0 rows] eqn:Hbooks;
    [split; [reflexivity | right; now left]|].
  destruct (like_pattern_limit <? _) eqn:Hlong.
  - split; [reflexivity|]. right. right. right.
    split; [reflexivity|]. split; [discriminate|].
    exists term. split; [reflexivity|].
    apply Z.ltb_lt in Hlong. rewrite pattern_length in Hlong.
    unfold like_pattern_limit in Hlong. lia.
  - destruct (filter _ (b0 :: rows)) as [|b found] eqn:Hfilter;
      cbn [List.length].
    + split; [reflexivity | right; now left].
    + split; [reflexivity|]. right. right. left. exists (b :: found).
      split; [reflexivity|]. split; [discriminate|].
      intros x Hx. rewrite <- Hfilter in Hx. now apply filter_In in Hx.
Qed.
